(** * WIP/sample-pulumi.py: a declaration graph for an S3 Express / Glue /
    Firehose ingestion pipeline

    The script is a flat sequence of resource constructor calls.  Strings
    computed by the script itself are plain values; strings that only the
    provisioning engine knows (properties of created resources) are
    [pulumi.Output]s.  The development embeds the script declaration by
    declaration and proves how the strings that thread the resources
    together are built. *)

From Stdlib Require Import ZArith Ascii String.
From stdpp Require Import base option list strings.

(** A Python [str] is embedded as the sequence of its code points, each
    below 256; [+:+] is string concatenation (what an f-string and
    [Output.concat] compute on resolved pieces). *)

(** ** The slice of the provisioning SDK the script calls *)

Module pulumi.

(** What the engine knows after creating the resources: the value of a
    property of the resource registered under a logical name. *)
Definition Provider : Type := string → string → string.

Module Output.

(** An output resolves against the engine's knowledge; it fails when an
    [apply] callback raises. *)
Definition t (A : Type) : Type := Provider → option A.

End Output.

(** [Input[T]] is either a plain [T] or an [Output[T]]. *)
Inductive Input (A : Type) : Type :=
| Plain (a : A)
| Deferred (o : Output.t A).
Arguments Plain {A} a.
Arguments Deferred {A} o.

Definition resolve {A : Type} (p : Provider) (i : Input A) : option A :=
  match i with
  | Plain a => Some a
  | Deferred o => o p
  end.

(** The join of already resolved pieces. *)
Fixpoint join_pieces (l : list string) : string :=
  match l with
  | [] => ""
  | s :: l' => s +:+ join_pieces l'
  end.

(** [Output.all]: the list of the resolved arguments. *)
Definition Output_all (args : list (Input string)) : Output.t (list string) :=
  λ p, mapM (resolve p) args.

(** [o.apply(f)], for a callback that may raise. *)
Definition Output_apply {A B : Type} (o : Output.t A) (f : A → option B)
  : Output.t B :=
  λ p, o p ≫= f.

(** [Output.concat]: the resolved arguments, joined. *)
Definition Output_concat (args : list (Input string)) : Output.t string :=
  Output_apply (Output_all args) (λ pieces, Some (join_pieces pieces)).

(** The output property [prop] of the resource with logical name [name]. *)
Definition property (name prop : string) : Output.t string :=
  λ p, Some (p name prop).

End pulumi.

Import pulumi.

(** ** [json.dumps] on the values the script builds *)

Module json.

(** The Python values handed to [json.dumps] here: [str], [list] and [dict]
    literals.  A dict literal keeps its items in insertion order. *)
#[local] Set Warnings "-register-all".
Inductive value : Type :=
| Str (s : string)
| List (l : list value)
| Dict (items : list (string * value)).

Definition hex_digit (n : N) : ascii :=
  ascii_of_N (if (n <? 10)%N then 48 + n else 87 + n).

(** [ESCAPE_DCT] and the fallback of [py_encode_basestring_ascii]. *)
Definition escape_char (c : ascii) : string :=
  let n := N_of_ascii c in
  if (n =? 34)%N then "\" +:+ String c ""
  else if (n =? 92)%N then "\\"
  else if (n =? 8)%N then "\b"
  else if (n =? 12)%N then "\f"
  else if (n =? 10)%N then "\n"
  else if (n =? 13)%N then "\r"
  else if (n =? 9)%N then "\t"
  else if ((32 <=? n) && (n <=? 126))%N then String c ""
  else "\u00" +:+ String (hex_digit (n / 16)) (String (hex_digit (n mod 16)) "").

Fixpoint escape (s : string) : string :=
  match s with
  | EmptyString => ""
  | String c s' => escape_char c +:+ escape s'
  end.

Definition quote : string := String (ascii_of_N 34) "".

Definition encode_basestring_ascii (s : string) : string :=
  quote +:+ escape s +:+ quote.

(** Items separated by [", "], the default item separator. *)
Fixpoint join_items (l : list string) : string :=
  match l with
  | [] => ""
  | [s] => s
  | s :: l' => s +:+ ", " +:+ join_items l'
  end.

Fixpoint dumps (v : value) : string :=
  match v with
  | Str s => encode_basestring_ascii s
  | List l => "[" +:+ join_items (map dumps l) +:+ "]"
  | Dict items =>
      "{" +:+ join_items
                (map (λ kv, encode_basestring_ascii (fst kv) +:+ ": " +:+ dumps (snd kv))
                     items) +:+ "}"
  end.

(** Reading a built value back: [d[key]] and the elements of a list. *)
Fixpoint assoc (key : string) (items : list (string * value)) : option value :=
  match items with
  | [] => None
  | (k, v) :: items' => if decide (k = key) then Some v else assoc key items'
  end.

Definition get (key : string) (v : value) : option value :=
  match v with
  | Dict items => assoc key items
  | _ => None
  end.

Definition elements (v : value) : option (list value) :=
  match v with
  | List l => Some l
  | _ => None
  end.

Definition as_str (v : value) : option string :=
  match v with
  | Str s => Some s
  | _ => None
  end.

End json.

(** ** Argument classes of the resources the script declares

    One module per SDK class; the fields are the keyword arguments the
    script passes, under their Python names. *)

Module DirectoryBucketLocationArgs.
Record t : Type := mk { name : Input string; type : Input string }.
End DirectoryBucketLocationArgs.

Module DirectoryBucketArgs.
Record t : Type := mk {
  location : DirectoryBucketLocationArgs.t;
  bucket_name : Input string;
  data_redundancy : Input string }.
End DirectoryBucketArgs.

(** A resource object: its logical name and the arguments it was declared
    with; its properties are outputs the engine resolves. *)
Module DirectoryBucket.
Record t : Type := mk { resource_name : string; args : DirectoryBucketArgs.t }.
Definition bucket_name (r : t) : Output.t string :=
  property (resource_name r) "bucket_name".
End DirectoryBucket.

Module CatalogDatabaseArgs.
Record t : Type := mk { name : Input string }.
End CatalogDatabaseArgs.

Module CatalogDatabase.
Record t : Type := mk { resource_name : string; args : CatalogDatabaseArgs.t }.
Definition name (r : t) : Output.t string := property (resource_name r) "name".
Definition catalog_id (r : t) : Output.t string :=
  property (resource_name r) "catalog_id".
End CatalogDatabase.

Module CatalogTableStorageDescriptorSerdeInfoArgs.
Record t : Type := mk { name : Input string; serialization_library : Input string }.
End CatalogTableStorageDescriptorSerdeInfoArgs.

Module CatalogTableStorageDescriptorColumnArgs.
Record t : Type := mk { name : Input string; type : Input string }.
End CatalogTableStorageDescriptorColumnArgs.

Module CatalogTableStorageDescriptorArgs.
Record t : Type := mk {
  location : Input string;
  input_format : Input string;
  output_format : Input string;
  serde_info : CatalogTableStorageDescriptorSerdeInfoArgs.t;
  columns : list CatalogTableStorageDescriptorColumnArgs.t }.
End CatalogTableStorageDescriptorArgs.

Module CatalogTableArgs.
Record t : Type := mk {
  database_name : Input string;
  name : Input string;
  table_type : Input string;
  storage_descriptor : CatalogTableStorageDescriptorArgs.t;
  partition_keys : list CatalogTableStorageDescriptorColumnArgs.t;
  parameters : list (string * string) }.
End CatalogTableArgs.

Module CatalogTable.
Record t : Type := mk { resource_name : string; args : CatalogTableArgs.t }.
Definition name (r : t) : Output.t string := property (resource_name r) "name".
End CatalogTable.

Module RoleArgs.
Record t : Type := mk { assume_role_policy : Input string }.
End RoleArgs.

Module Role.
Record t : Type := mk { resource_name : string; args : RoleArgs.t }.
Definition name (r : t) : Output.t string := property (resource_name r) "name".
Definition arn (r : t) : Output.t string := property (resource_name r) "arn".
End Role.

Module PolicyArgs.
Record t : Type := mk { policy : Input string }.
End PolicyArgs.

Module Policy.
Record t : Type := mk { resource_name : string; args : PolicyArgs.t }.
Definition arn (r : t) : Output.t string := property (resource_name r) "arn".
End Policy.

Module RolePolicyAttachmentArgs.
Record t : Type := mk { role : Input string; policy_arn : Input string }.
End RolePolicyAttachmentArgs.

Module RolePolicyAttachment.
Record t : Type := mk { resource_name : string; args : RolePolicyAttachmentArgs.t }.
End RolePolicyAttachment.

Module FirehoseDeliveryStreamExtendedS3ConfigurationCloudwatchLoggingOptionsArgs.
Record t : Type := mk {
  enabled : Input bool;
  log_group_name : Input string;
  log_stream_name : Input string }.
End FirehoseDeliveryStreamExtendedS3ConfigurationCloudwatchLoggingOptionsArgs.

Module FirehoseDeliveryStreamExtendedS3ConfigurationDataFormatConversionConfigurationInputFormatConfigurationDeserializerOpenXJsonSerDeArgs.
Record t : Type := mk { }.
End FirehoseDeliveryStreamExtendedS3ConfigurationDataFormatConversionConfigurationInputFormatConfigurationDeserializerOpenXJsonSerDeArgs.

Module FirehoseDeliveryStreamExtendedS3ConfigurationDataFormatConversionConfigurationInputFormatConfigurationDeserializerArgs.
Record t : Type := mk {
  open_x_json_ser_de :
    FirehoseDeliveryStreamExtendedS3ConfigurationDataFormatConversionConfigurationInputFormatConfigurationDeserializerOpenXJsonSerDeArgs.t }.
End FirehoseDeliveryStreamExtendedS3ConfigurationDataFormatConversionConfigurationInputFormatConfigurationDeserializerArgs.

Module FirehoseDeliveryStreamExtendedS3ConfigurationDataFormatConversionConfigurationInputFormatConfigurationArgs.
Record t : Type := mk {
  deserializer :
    FirehoseDeliveryStreamExtendedS3ConfigurationDataFormatConversionConfigurationInputFormatConfigurationDeserializerArgs.t }.
End FirehoseDeliveryStreamExtendedS3ConfigurationDataFormatConversionConfigurationInputFormatConfigurationArgs.

Module FirehoseDeliveryStreamExtendedS3ConfigurationDataFormatConversionConfigurationOutputFormatConfigurationSerializerParquetSerDeArgs.
Record t : Type := mk { compression : Input string }.
End FirehoseDeliveryStreamExtendedS3ConfigurationDataFormatConversionConfigurationOutputFormatConfigurationSerializerParquetSerDeArgs.

Module FirehoseDeliveryStreamExtendedS3ConfigurationDataFormatConversionConfigurationOutputFormatConfigurationSerializerArgs.
Record t : Type := mk {
  parquet_ser_de :
    FirehoseDeliveryStreamExtendedS3ConfigurationDataFormatConversionConfigurationOutputFormatConfigurationSerializerParquetSerDeArgs.t }.
End FirehoseDeliveryStreamExtendedS3ConfigurationDataFormatConversionConfigurationOutputFormatConfigurationSerializerArgs.

Module FirehoseDeliveryStreamExtendedS3ConfigurationDataFormatConversionConfigurationOutputFormatConfigurationArgs.
Record t : Type := mk {
  serializer :
    FirehoseDeliveryStreamExtendedS3ConfigurationDataFormatConversionConfigurationOutputFormatConfigurationSerializerArgs.t }.
End FirehoseDeliveryStreamExtendedS3ConfigurationDataFormatConversionConfigurationOutputFormatConfigurationArgs.

Module FirehoseDeliveryStreamExtendedS3ConfigurationDataFormatConversionConfigurationSchemaConfigurationArgs.
Record t : Type := mk {
  role_arn : Input string;
  database_name : Input string;
  table_name : Input string;
  region : Input string }.
End FirehoseDeliveryStreamExtendedS3ConfigurationDataFormatConversionConfigurationSchemaConfigurationArgs.

Module FirehoseDeliveryStreamExtendedS3ConfigurationDataFormatConversionConfigurationArgs.
Record t : Type := mk {
  enabled : Input bool;
  input_format_configuration :
    FirehoseDeliveryStreamExtendedS3ConfigurationDataFormatConversionConfigurationInputFormatConfigurationArgs.t;
  output_format_configuration :
    FirehoseDeliveryStreamExtendedS3ConfigurationDataFormatConversionConfigurationOutputFormatConfigurationArgs.t;
  schema_configuration :
    FirehoseDeliveryStreamExtendedS3ConfigurationDataFormatConversionConfigurationSchemaConfigurationArgs.t }.
End FirehoseDeliveryStreamExtendedS3ConfigurationDataFormatConversionConfigurationArgs.

Module FirehoseDeliveryStreamExtendedS3ConfigurationDynamicPartitioningConfigurationRetryOptionsArgs.
Record t : Type := mk { duration_in_seconds : Input Z }.
End FirehoseDeliveryStreamExtendedS3ConfigurationDynamicPartitioningConfigurationRetryOptionsArgs.

Module FirehoseDeliveryStreamExtendedS3ConfigurationDynamicPartitioningConfigurationArgs.
Record t : Type := mk {
  enabled : Input bool;
  retry_options :
    FirehoseDeliveryStreamExtendedS3ConfigurationDynamicPartitioningConfigurationRetryOptionsArgs.t }.
End FirehoseDeliveryStreamExtendedS3ConfigurationDynamicPartitioningConfigurationArgs.

Module FirehoseDeliveryStreamExtendedS3ConfigurationArgs.
Record t : Type := mk {
  role_arn : Input string;
  bucket_arn : Input string;
  prefix : Input string;
  buffering_interval : Input Z;
  buffering_size : Input Z;
  compression_format : Input string;
  cloudwatch_logging_options :
    FirehoseDeliveryStreamExtendedS3ConfigurationCloudwatchLoggingOptionsArgs.t;
  data_format_conversion_configuration :
    FirehoseDeliveryStreamExtendedS3ConfigurationDataFormatConversionConfigurationArgs.t;
  dynamic_partitioning_configuration :
    FirehoseDeliveryStreamExtendedS3ConfigurationDynamicPartitioningConfigurationArgs.t }.
End FirehoseDeliveryStreamExtendedS3ConfigurationArgs.

Module FirehoseDeliveryStreamArgs.
Record t : Type := mk {
  name : Input string;
  destination : Input string;
  extended_s3_configuration : FirehoseDeliveryStreamExtendedS3ConfigurationArgs.t }.
End FirehoseDeliveryStreamArgs.

Module FirehoseDeliveryStream.
Record t : Type := mk { resource_name : string; args : FirehoseDeliveryStreamArgs.t }.
Definition name (r : t) : Output.t string := property (resource_name r) "name".
Definition arn (r : t) : Output.t string := property (resource_name r) "arn".
End FirehoseDeliveryStream.

(** ** What running the script leaves with the engine *)

Inductive Resource : Type :=
| R_DirectoryBucket (r : DirectoryBucket.t)
| R_CatalogDatabase (r : CatalogDatabase.t)
| R_CatalogTable (r : CatalogTable.t)
| R_Role (r : Role.t)
| R_Policy (r : Policy.t)
| R_RolePolicyAttachment (r : RolePolicyAttachment.t)
| R_FirehoseDeliveryStream (r : FirehoseDeliveryStream.t).

(** A statement of the script with an effect on the engine: a resource
    constructor call, or [pulumi.export]. *)
Inductive Step : Type :=
| Register (r : Resource)
| Export (key : string) (value : Output.t string).

Record Stack : Type := mkStack {
  resources : list Resource;
  exports : list (string * Output.t string) }.

Definition step (st : Stack) (s : Step) : Stack :=
  match s with
  | Register r => mkStack (resources st ++ [r]) (exports st)
  | Export k v => mkStack (resources st) (exports st ++ [(k, v)])
  end.

Definition execute (prog : list Step) : Stack :=
  foldl step (mkStack [] []) prog.

(** ** The script, in source order *)

Section Script.

(** [aws.get_region().name] and [aws.get_caller_identity().account_id]:
    plain strings the provider hands to the running script. *)
Variable aws_region : string.
Variable account_id : string.

Definition availability_zone_id : string := "use1-az4".

Definition bucket_base_name : string := "my-s3-table-bucket".
Definition s3_express_bucket_name : string :=
  bucket_base_name +:+ "--" +:+ availability_zone_id +:+ "--x-s3".

Definition database_name : string := "s3_tables_db".
Definition table_name : string := "web_events_s3_table".
Definition firehose_stream_name : string := "s3-tables-delivery-stream".

(** 1. S3 Express One Zone directory bucket *)
Definition s3_express_directory_bucket : DirectoryBucket.t :=
  DirectoryBucket.mk "s3ExpressDirectoryBucket"
    {| DirectoryBucketArgs.location :=
         {| DirectoryBucketLocationArgs.name := Plain availability_zone_id;
            DirectoryBucketLocationArgs.type := Plain "AvailabilityZone" |};
       DirectoryBucketArgs.bucket_name := Plain s3_express_bucket_name;
       DirectoryBucketArgs.data_redundancy := Plain "SingleAvailabilityZone" |}.

Definition s3_express_bucket_arn : Output.t string :=
  Output_concat
    [Plain "arn:aws:s3express:"; Plain aws_region; Plain ":"; Plain account_id;
     Plain ":bucket/";
     Deferred (DirectoryBucket.bucket_name s3_express_directory_bucket)].

Definition s3_express_table_location : Output.t string :=
  Output_concat
    [Plain "s3express://";
     Deferred (DirectoryBucket.bucket_name s3_express_directory_bucket);
     Plain "/"; Plain table_name; Plain "/"].

Definition firehose_error_output_prefix : Output.t string :=
  Output_concat
    [Plain "s3express://";
     Deferred (DirectoryBucket.bucket_name s3_express_directory_bucket);
     Plain "/firehose-errors/"].

(** 2. Glue catalog database *)
Definition glue_database : CatalogDatabase.t :=
  CatalogDatabase.mk "s3TablesGlueDatabase"
    {| CatalogDatabaseArgs.name := Plain database_name |}.

(** 3. Placeholders for the partitioning Lambda *)
Definition partition_lambda_arn : string := "arn:aws:lambda:...".
Definition partition_lambda_role_arn : string := "arn:aws:iam:...".

(** 4. Glue catalog table *)
Definition glue_table : CatalogTable.t :=
  CatalogTable.mk "s3GlueTableForExpress"
    {| CatalogTableArgs.database_name := Deferred (CatalogDatabase.name glue_database);
       CatalogTableArgs.name := Plain table_name;
       CatalogTableArgs.table_type := Plain "ICEBERG";
       CatalogTableArgs.storage_descriptor :=
         {| CatalogTableStorageDescriptorArgs.location :=
              Deferred s3_express_table_location;
            CatalogTableStorageDescriptorArgs.input_format :=
              Plain "org.apache.hadoop.mapred.TextInputFormat";
            CatalogTableStorageDescriptorArgs.output_format :=
              Plain "org.apache.hadoop.hive.ql.io.HiveIgnoreKeyTextOutputFormat";
            CatalogTableStorageDescriptorArgs.serde_info :=
              {| CatalogTableStorageDescriptorSerdeInfoArgs.name := Plain "IcebergSerDe";
                 CatalogTableStorageDescriptorSerdeInfoArgs.serialization_library :=
                   Plain "org.apache.hadoop.hive.serde2.lazy.LazySimpleSerDe" |};
            CatalogTableStorageDescriptorArgs.columns :=
              [CatalogTableStorageDescriptorColumnArgs.mk (Plain "site_id") (Plain "string");
               CatalogTableStorageDescriptorColumnArgs.mk (Plain "timestamp") (Plain "timestamp");
               CatalogTableStorageDescriptorColumnArgs.mk (Plain "event_data") (Plain "string");
               CatalogTableStorageDescriptorColumnArgs.mk (Plain "date") (Plain "date")] |};
       CatalogTableArgs.partition_keys :=
         [CatalogTableStorageDescriptorColumnArgs.mk (Plain "site_id") (Plain "string");
          CatalogTableStorageDescriptorColumnArgs.mk (Plain "date") (Plain "date")];
       CatalogTableArgs.parameters :=
         [("table_type", "ICEBERG");
          ("format", "parquet");
          ("write.parquet.compression-codec", "snappy")] |}.

(** 5. IAM role and policy for Firehose *)
Definition firehose_role : Role.t :=
  Role.mk "firehoseS3ExpressRole"
    {| RoleArgs.assume_role_policy :=
         Plain (json.dumps (json.Dict
           [("Version", json.Str "2012-10-17");
            ("Statement", json.List
               [json.Dict
                  [("Action", json.Str "sts:AssumeRole");
                   ("Effect", json.Str "Allow");
                   ("Principal",
                    json.Dict [("Service", json.Str "firehose.amazonaws.com")])]])])) |}.

(** The dict literal in the body of the lambda given to [apply]; [args[i]]
    raises when [i] is out of range. *)
Definition firehose_policy_dict (args : list string) : option json.value :=
  args0 ← args !! 0;
  args3 ← args !! 3;
  args4 ← args !! 4;
  args5 ← args !! 5;
  Some (json.Dict
    [("Version", json.Str "2012-10-17");
     ("Statement", json.List
        [json.Dict
           [("Effect", json.Str "Allow");
            ("Action", json.List
               [json.Str "s3express:CreateSession";
                json.Str "s3express:PutObject"]);
            ("Resource", json.List
               [json.Str args0;
                json.Str (args0 +:+ "/*")])];
         json.Dict
           [("Effect", json.Str "Allow");
            ("Action", json.List
               [json.Str "glue:GetDatabase";
                json.Str "glue:GetTable";
                json.Str "glue:UpdateTable"]);
            ("Resource", json.List
               [json.Str ("arn:aws:glue:" +:+ aws_region +:+ ":" +:+ args3 +:+ ":catalog");
                json.Str ("arn:aws:glue:" +:+ aws_region +:+ ":" +:+ args3
                            +:+ ":database/" +:+ args4);
                json.Str ("arn:aws:glue:" +:+ aws_region +:+ ":" +:+ args3
                            +:+ ":table/" +:+ args4 +:+ "/" +:+ args5)])];
         json.Dict
           [("Effect", json.Str "Allow");
            ("Action", json.List
               [json.Str "logs:CreateLogGroup";
                json.Str "logs:CreateLogStream";
                json.Str "logs:PutLogEvents"]);
            ("Resource", json.List
               [json.Str ("arn:aws:logs:" +:+ aws_region +:+ ":" +:+ account_id
                            +:+ ":log-group:/aws/kinesisfirehose/"
                            +:+ firehose_stream_name +:+ ":*")])]])]).

(** The six values handed to [Output.all]. *)
Definition firehose_policy_inputs : list (Input string) :=
  [Deferred s3_express_bucket_arn;
   Deferred (DirectoryBucket.bucket_name s3_express_directory_bucket);
   Plain partition_lambda_arn;
   Deferred (CatalogDatabase.catalog_id glue_database);
   Deferred (CatalogDatabase.name glue_database);
   Deferred (CatalogTable.name glue_table)].

Definition firehose_policy_document : Output.t string :=
  Output_apply (Output_all firehose_policy_inputs)
    (λ args, json.dumps <$> firehose_policy_dict args).

Definition firehose_policy : Policy.t :=
  Policy.mk "firehoseS3ExpressPolicy"
    {| PolicyArgs.policy := Deferred firehose_policy_document |}.

(** The attachment is constructed without being bound to a name. *)
Definition firehose_policy_attachment : RolePolicyAttachment.t :=
  RolePolicyAttachment.mk "firehoseS3ExpressPolicyAttachment"
    {| RolePolicyAttachmentArgs.role := Deferred (Role.name firehose_role);
       RolePolicyAttachmentArgs.policy_arn := Deferred (Policy.arn firehose_policy) |}.

(** 6. Kinesis Firehose delivery stream *)
Definition firehose_stream : FirehoseDeliveryStream.t :=
  FirehoseDeliveryStream.mk "s3TablesFirehoseStream"
    {| FirehoseDeliveryStreamArgs.name := Plain firehose_stream_name;
       FirehoseDeliveryStreamArgs.destination := Plain "extended_s3";
       FirehoseDeliveryStreamArgs.extended_s3_configuration :=
         {| FirehoseDeliveryStreamExtendedS3ConfigurationArgs.role_arn :=
              Deferred (Role.arn firehose_role);
            FirehoseDeliveryStreamExtendedS3ConfigurationArgs.bucket_arn :=
              Deferred s3_express_bucket_arn;
            FirehoseDeliveryStreamExtendedS3ConfigurationArgs.prefix :=
              Deferred (Output_concat [Plain table_name; Plain "/"]);
            FirehoseDeliveryStreamExtendedS3ConfigurationArgs.buffering_interval :=
              Plain 60%Z;
            FirehoseDeliveryStreamExtendedS3ConfigurationArgs.buffering_size :=
              Plain 5%Z;
            FirehoseDeliveryStreamExtendedS3ConfigurationArgs.compression_format :=
              Plain "UNCOMPRESSED";
            FirehoseDeliveryStreamExtendedS3ConfigurationArgs.cloudwatch_logging_options :=
              {| FirehoseDeliveryStreamExtendedS3ConfigurationCloudwatchLoggingOptionsArgs.enabled :=
                   Plain true;
                 FirehoseDeliveryStreamExtendedS3ConfigurationCloudwatchLoggingOptionsArgs.log_group_name :=
                   Plain ("/aws/kinesisfirehose/" +:+ firehose_stream_name);
                 FirehoseDeliveryStreamExtendedS3ConfigurationCloudwatchLoggingOptionsArgs.log_stream_name :=
                   Plain "S3ExpressDelivery" |};
            FirehoseDeliveryStreamExtendedS3ConfigurationArgs.data_format_conversion_configuration :=
              {| FirehoseDeliveryStreamExtendedS3ConfigurationDataFormatConversionConfigurationArgs.enabled :=
                   Plain true;
                 FirehoseDeliveryStreamExtendedS3ConfigurationDataFormatConversionConfigurationArgs.input_format_configuration :=
                   {| FirehoseDeliveryStreamExtendedS3ConfigurationDataFormatConversionConfigurationInputFormatConfigurationArgs.deserializer :=
                        {| FirehoseDeliveryStreamExtendedS3ConfigurationDataFormatConversionConfigurationInputFormatConfigurationDeserializerArgs.open_x_json_ser_de :=
                             FirehoseDeliveryStreamExtendedS3ConfigurationDataFormatConversionConfigurationInputFormatConfigurationDeserializerOpenXJsonSerDeArgs.mk |} |};
                 FirehoseDeliveryStreamExtendedS3ConfigurationDataFormatConversionConfigurationArgs.output_format_configuration :=
                   {| FirehoseDeliveryStreamExtendedS3ConfigurationDataFormatConversionConfigurationOutputFormatConfigurationArgs.serializer :=
                        {| FirehoseDeliveryStreamExtendedS3ConfigurationDataFormatConversionConfigurationOutputFormatConfigurationSerializerArgs.parquet_ser_de :=
                             {| FirehoseDeliveryStreamExtendedS3ConfigurationDataFormatConversionConfigurationOutputFormatConfigurationSerializerParquetSerDeArgs.compression :=
                                  Plain "SNAPPY" |} |} |};
                 FirehoseDeliveryStreamExtendedS3ConfigurationDataFormatConversionConfigurationArgs.schema_configuration :=
                   {| FirehoseDeliveryStreamExtendedS3ConfigurationDataFormatConversionConfigurationSchemaConfigurationArgs.role_arn :=
                        Deferred (Role.arn firehose_role);
                      FirehoseDeliveryStreamExtendedS3ConfigurationDataFormatConversionConfigurationSchemaConfigurationArgs.database_name :=
                        Deferred (CatalogDatabase.name glue_database);
                      FirehoseDeliveryStreamExtendedS3ConfigurationDataFormatConversionConfigurationSchemaConfigurationArgs.table_name :=
                        Deferred (CatalogTable.name glue_table);
                      FirehoseDeliveryStreamExtendedS3ConfigurationDataFormatConversionConfigurationSchemaConfigurationArgs.region :=
                        Plain aws_region |} |};
            FirehoseDeliveryStreamExtendedS3ConfigurationArgs.dynamic_partitioning_configuration :=
              {| FirehoseDeliveryStreamExtendedS3ConfigurationDynamicPartitioningConfigurationArgs.enabled :=
                   Plain true;
                 FirehoseDeliveryStreamExtendedS3ConfigurationDynamicPartitioningConfigurationArgs.retry_options :=
                   {| FirehoseDeliveryStreamExtendedS3ConfigurationDynamicPartitioningConfigurationRetryOptionsArgs.duration_in_seconds :=
                        Plain 60%Z |} |} |} |}.

(** The whole module body: seven constructor calls, then seven exports. *)
Definition program : list Step :=
  [Register (R_DirectoryBucket s3_express_directory_bucket);
   Register (R_CatalogDatabase glue_database);
   Register (R_CatalogTable glue_table);
   Register (R_Role firehose_role);
   Register (R_Policy firehose_policy);
   Register (R_RolePolicyAttachment firehose_policy_attachment);
   Register (R_FirehoseDeliveryStream firehose_stream);
   Export "s3_express_bucket_name"
     (DirectoryBucket.bucket_name s3_express_directory_bucket);
   Export "s3_express_bucket_arn" s3_express_bucket_arn;
   Export "s3_table_location" s3_express_table_location;
   Export "glue_database_name" (CatalogDatabase.name glue_database);
   Export "glue_table_name" (CatalogTable.name glue_table);
   Export "firehose_delivery_stream_name" (FirehoseDeliveryStream.name firehose_stream);
   Export "firehose_delivery_stream_arn" (FirehoseDeliveryStream.arn firehose_stream)].

End Script.

(** ** Running the script *)

(** Everything outside the script that a run could depend on.  [datetime]
    is imported by the script, so the clock is part of it, although no
    statement reads it. *)
Record Environment : Type := mkEnvironment {
  get_region_name : string;
  get_caller_identity_account_id : string;
  engine : Provider;
  clock : Z }.

Definition run (env : Environment) : Stack :=
  execute (program (get_region_name env) (get_caller_identity_account_id env)).

(** [pulumi.export] under a key already used replaces the earlier value. *)
Definition lookup_export (key : string) (st : Stack) : option (Output.t string) :=
  snd <$> last (filter (λ kv, fst kv = key) (exports st)).

(** The stack outputs as the engine reports them. *)
Definition resolved_exports (p : Provider) (st : Stack) : list (string * option string) :=
  map (λ kv, (fst kv, snd kv p)) (exports st).

Definition column_inputs (c : CatalogTableStorageDescriptorColumnArgs.t)
  : list (Input string) :=
  [CatalogTableStorageDescriptorColumnArgs.name c;
   CatalogTableStorageDescriptorColumnArgs.type c].

(** The string-valued arguments of a declaration, in declaration order. *)
Definition string_inputs (r : Resource) : list (Input string) :=
  match r with
  | R_DirectoryBucket b =>
      let a := DirectoryBucket.args b in
      [DirectoryBucketLocationArgs.name (DirectoryBucketArgs.location a);
       DirectoryBucketLocationArgs.type (DirectoryBucketArgs.location a);
       DirectoryBucketArgs.bucket_name a;
       DirectoryBucketArgs.data_redundancy a]
  | R_CatalogDatabase d => [CatalogDatabaseArgs.name (CatalogDatabase.args d)]
  | R_CatalogTable t =>
      let a := CatalogTable.args t in
      let sd := CatalogTableArgs.storage_descriptor a in
      [CatalogTableArgs.database_name a;
       CatalogTableArgs.name a;
       CatalogTableArgs.table_type a;
       CatalogTableStorageDescriptorArgs.location sd;
       CatalogTableStorageDescriptorArgs.input_format sd;
       CatalogTableStorageDescriptorArgs.output_format sd;
       CatalogTableStorageDescriptorSerdeInfoArgs.name
         (CatalogTableStorageDescriptorArgs.serde_info sd);
       CatalogTableStorageDescriptorSerdeInfoArgs.serialization_library
         (CatalogTableStorageDescriptorArgs.serde_info sd)]
      ++ concat (map column_inputs (CatalogTableStorageDescriptorArgs.columns sd))
      ++ concat (map column_inputs (CatalogTableArgs.partition_keys a))
      ++ concat (map (λ kv, [Plain (fst kv); Plain (snd kv)]) (CatalogTableArgs.parameters a))
  | R_Role r => [RoleArgs.assume_role_policy (Role.args r)]
  | R_Policy q => [PolicyArgs.policy (Policy.args q)]
  | R_RolePolicyAttachment at_ =>
      [RolePolicyAttachmentArgs.role (RolePolicyAttachment.args at_);
       RolePolicyAttachmentArgs.policy_arn (RolePolicyAttachment.args at_)]
  | R_FirehoseDeliveryStream f =>
      let a := FirehoseDeliveryStream.args f in
      let e := FirehoseDeliveryStreamArgs.extended_s3_configuration a in
      let l := FirehoseDeliveryStreamExtendedS3ConfigurationArgs.cloudwatch_logging_options e in
      let c := FirehoseDeliveryStreamExtendedS3ConfigurationArgs.data_format_conversion_configuration e in
      let sc := FirehoseDeliveryStreamExtendedS3ConfigurationDataFormatConversionConfigurationArgs.schema_configuration c in
      [FirehoseDeliveryStreamArgs.name a;
       FirehoseDeliveryStreamArgs.destination a;
       FirehoseDeliveryStreamExtendedS3ConfigurationArgs.role_arn e;
       FirehoseDeliveryStreamExtendedS3ConfigurationArgs.bucket_arn e;
       FirehoseDeliveryStreamExtendedS3ConfigurationArgs.prefix e;
       FirehoseDeliveryStreamExtendedS3ConfigurationArgs.compression_format e;
       FirehoseDeliveryStreamExtendedS3ConfigurationCloudwatchLoggingOptionsArgs.log_group_name l;
       FirehoseDeliveryStreamExtendedS3ConfigurationCloudwatchLoggingOptionsArgs.log_stream_name l;
       FirehoseDeliveryStreamExtendedS3ConfigurationDataFormatConversionConfigurationOutputFormatConfigurationSerializerParquetSerDeArgs.compression
         (FirehoseDeliveryStreamExtendedS3ConfigurationDataFormatConversionConfigurationOutputFormatConfigurationSerializerArgs.parquet_ser_de
            (FirehoseDeliveryStreamExtendedS3ConfigurationDataFormatConversionConfigurationOutputFormatConfigurationArgs.serializer
               (FirehoseDeliveryStreamExtendedS3ConfigurationDataFormatConversionConfigurationArgs.output_format_configuration c)));
       FirehoseDeliveryStreamExtendedS3ConfigurationDataFormatConversionConfigurationSchemaConfigurationArgs.role_arn sc;
       FirehoseDeliveryStreamExtendedS3ConfigurationDataFormatConversionConfigurationSchemaConfigurationArgs.database_name sc;
       FirehoseDeliveryStreamExtendedS3ConfigurationDataFormatConversionConfigurationSchemaConfigurationArgs.table_name sc;
       FirehoseDeliveryStreamExtendedS3ConfigurationDataFormatConversionConfigurationSchemaConfigurationArgs.region sc]
  end.

Definition resolved_declaration (p : Provider) (r : Resource) : list (option string) :=
  map (resolve p) (string_inputs r).

(** The class and logical name of a declaration. *)
Definition kind_and_name (r : Resource) : string * string :=
  match r with
  | R_DirectoryBucket b => ("DirectoryBucket", DirectoryBucket.resource_name b)
  | R_CatalogDatabase d => ("CatalogDatabase", CatalogDatabase.resource_name d)
  | R_CatalogTable t => ("CatalogTable", CatalogTable.resource_name t)
  | R_Role r => ("Role", Role.resource_name r)
  | R_Policy q => ("Policy", Policy.resource_name q)
  | R_RolePolicyAttachment a => ("RolePolicyAttachment", RolePolicyAttachment.resource_name a)
  | R_FirehoseDeliveryStream f =>
      ("FirehoseDeliveryStream", FirehoseDeliveryStream.resource_name f)
  end.

(** The resource properties the script reads back from the engine. *)
Definition consulted : list (string * string) :=
  [("s3ExpressDirectoryBucket", "bucket_name");
   ("s3TablesGlueDatabase", "name");
   ("s3TablesGlueDatabase", "catalog_id");
   ("s3GlueTableForExpress", "name");
   ("firehoseS3ExpressRole", "name");
   ("firehoseS3ExpressRole", "arn");
   ("firehoseS3ExpressPolicy", "arn");
   ("s3TablesFirehoseStream", "name");
   ("s3TablesFirehoseStream", "arn")].

Definition agree_on (l : list (string * string)) (p1 p2 : Provider) : Prop :=
  Forall (λ np, p1 (fst np) (snd np) = p2 (fst np) (snd np)) l.

(** ** Reading the IAM policy document *)

Definition statements (doc : json.value) : option (list json.value) :=
  json.get "Statement" doc ≫= json.elements.

Definition string_list (v : json.value) : option (list string) :=
  json.elements v ≫= mapM json.as_str.

Definition statement_field (field : string) (doc : json.value) (i : nat)
  : option (list string) :=
  sts ← statements doc;
  st ← sts !! i;
  json.get field st ≫= string_list.

Definition statement_resources : json.value → nat → option (list string) :=
  statement_field "Resource".

Definition statement_actions : json.value → nat → option (list string) :=
  statement_field "Action".

(** Every string of a built value: dict keys and string leaves at any
    depth, in rendering order. *)
Fixpoint strings_of (v : json.value) : list string :=
  match v with
  | json.Str s => [s]
  | json.List l => concat (map strings_of l)
  | json.Dict items => concat (map (λ kv, fst kv :: strings_of (snd kv)) items)
  end.

(** The six resolved values the [apply] callback receives. *)
Definition policy_args (region account : string) (p : Provider) : list string :=
  ["arn:aws:s3express:" +:+ region +:+ ":" +:+ account +:+ ":bucket/"
     +:+ p "s3ExpressDirectoryBucket" "bucket_name";
   p "s3ExpressDirectoryBucket" "bucket_name";
   partition_lambda_arn;
   p "s3TablesGlueDatabase" "catalog_id";
   p "s3TablesGlueDatabase" "name";
   p "s3GlueTableForExpress" "name"].

(** A provider for examples: every property reads
    [<logical name>.<property>]. *)
Definition echo_provider : Provider := λ name prop, name +:+ "." +:+ prop.

(** Two environments with the same region, account and consulted
    properties, at different times and with engines that differ on a
    property the script never reads. *)
Definition env_a : Environment :=
  mkEnvironment "us-east-1" "123456789012" echo_provider 0.

Definition env_b : Environment :=
  mkEnvironment "us-east-1" "123456789012"
    (λ name prop, if decide (prop = "id") then "other" else echo_provider name prop)
    1739000000.

(** ** Reading [json.dumps] output back

    Used to show that escaping loses nothing. *)

(** Characters [json.dumps] leaves as they are or produces: space to
    tilde. *)
Definition printable (c : ascii) : bool :=
  let n := N_of_ascii c in ((32 <=? n) && (n <=? 126))%N.

Fixpoint ascii_only (s : string) : bool :=
  match s with
  | EmptyString => true
  | String c s' => printable c && ascii_only s'
  end.

Definition hex_value (c : ascii) : N :=
  let n := N_of_ascii c in
  if (n <=? 57)%N then n - 48 else n - 87.

(** The inverse of [json.escape_char] at the front of a string: the
    character the first escape sequence stands for, and the rest. *)
Definition decode_char (s : string) : option (ascii * string) :=
  match s with
  | EmptyString => None
  | String h t =>
      if (N_of_ascii h =? 92)%N then
        match t with
        | EmptyString => None
        | String x t' =>
            let n := N_of_ascii x in
            if (n =? 34)%N then Some (x, t')
            else if (n =? 92)%N then Some (x, t')
            else if (n =? 98)%N then Some (ascii_of_N 8, t')
            else if (n =? 102)%N then Some (ascii_of_N 12, t')
            else if (n =? 110)%N then Some (ascii_of_N 10, t')
            else if (n =? 114)%N then Some (ascii_of_N 13, t')
            else if (n =? 116)%N then Some (ascii_of_N 9, t')
            else if (n =? 117)%N then
              match t' with
              | String _ (String _ (String h1 (String h2 t''))) =>
                  Some (ascii_of_N (16 * hex_value h1 + hex_value h2), t'')
              | _ => None
              end
            else None
        end
      else Some (h, t)
  end.

Definition head_char (s : string) : option ascii :=
  match s with
  | EmptyString => None
  | String c _ => Some c
  end.





(** ** The string encoder of [json.dumps] on every code point

    [py_encode_basestring_ascii] in full: a [str] is a sequence of code
    points up to 0x10FFFF.  [json.escape_char] is its restriction to code
    points below 256. *)

Module unicode.

Definition str : Type := list N.

(** ['{0:04x}'.format(n)] for [n] below 0x10000. *)
Definition hex4 (n : N) : string :=
  String (json.hex_digit (n / 4096 mod 16))
    (String (json.hex_digit (n / 256 mod 16))
       (String (json.hex_digit (n / 16 mod 16))
          (String (json.hex_digit (n mod 16)) ""))).

(** The replacement of one code point: [ESCAPE_DCT], the character itself
    from space to tilde, [\uXXXX] below 0x10000, a surrogate pair above. *)
Definition escape_code_point (n : N) : string :=
  if (n =? 34)%N then "\" +:+ json.quote
  else if (n =? 92)%N then "\\"
  else if (n =? 8)%N then "\b"
  else if (n =? 12)%N then "\f"
  else if (n =? 10)%N then "\n"
  else if (n =? 13)%N then "\r"
  else if (n =? 9)%N then "\t"
  else if ((32 <=? n) && (n <=? 126))%N then String (ascii_of_N n) ""
  else if (n <? 65536)%N then "\u" +:+ hex4 n
  else
    let m := (n - 65536)%N in
    let s1 := N.lor 55296 (N.land (N.shiftr m 10) 1023) in
    let s2 := N.lor 56320 (N.land m 1023) in
    "\u" +:+ hex4 s1 +:+ "\u" +:+ hex4 s2.

Fixpoint escape (u : str) : string :=
  match u with
  | [] => ""
  | n :: u' => escape_code_point n +:+ escape u'
  end.

Definition encode_basestring_ascii (u : str) : string :=
  json.quote +:+ escape u +:+ json.quote.

(** The code points of an embedded string. *)
Fixpoint of_string (s : string) : str :=
  match s with
  | EmptyString => []
  | String c s' => N_of_ascii c :: of_string s'
  end.

(** The embedded string of code points below 256. *)
Fixpoint to_string (u : str) : string :=
  match u with
  | [] => ""
  | n :: u' => String (ascii_of_N n) (to_string u')
  end.

End unicode.

(** * Properties *)

Lemma append_empty_r (s : string) : s +:+ "" = s.
Proof.
  induction s as [|c s IH]; [reflexivity|].
  change (String c (s +:+ "") = String c s). by f_equal.
Qed.

(** Separators and escapes of [json.dumps] on a small value. *)
Example dumps_separators_and_escapes :
  json.dumps (json.List [json.Str "a\b";
                         json.Dict [("k", json.Str (String (ascii_of_N 10) ""))]])
  = "[" +:+ json.quote +:+ "a\\b" +:+ json.quote +:+ ", {"
      +:+ json.quote +:+ "k" +:+ json.quote +:+ ": "
      +:+ json.quote +:+ "\n" +:+ json.quote +:+ "}]".
Proof. reflexivity. Qed.

(** [Output.concat] of inputs that all resolve is the join of their values. *)
Lemma Output_concat_resolves (p : Provider) (args : list (Input string))
    (pieces : list string) :
  mapM (resolve p) args = Some pieces →
  Output_concat args p = Some (join_pieces pieces).
Proof. unfold Output_concat, Output_apply, Output_all. by intros ->. Qed.

Lemma bucket_name_resolves (p : Provider) :
  DirectoryBucket.bucket_name s3_express_directory_bucket p
  = Some (p "s3ExpressDirectoryBucket" "bucket_name").
Proof. reflexivity. Qed.

Lemma s3_express_bucket_arn_resolves (region account : string) (p : Provider) :
  s3_express_bucket_arn region account p
  = Some ("arn:aws:s3express:" +:+ region +:+ ":" +:+ account +:+ ":bucket/"
            +:+ p "s3ExpressDirectoryBucket" "bucket_name").
Proof.
  unfold s3_express_bucket_arn.
  erewrite Output_concat_resolves by reflexivity.
  simpl join_pieces. by rewrite append_empty_r.
Qed.

Lemma s3_express_table_location_resolves (p : Provider) :
  s3_express_table_location p
  = Some ("s3express://" +:+ p "s3ExpressDirectoryBucket" "bucket_name"
            +:+ "/" +:+ table_name +:+ "/").
Proof.
  unfold s3_express_table_location.
  by erewrite Output_concat_resolves by reflexivity.
Qed.

(** The callback does not raise on a list of six values. *)
Lemma firehose_policy_dict_total (region account : string) (args : list string) :
  length args = 6 →
  ∃ doc, firehose_policy_dict region account args = Some doc.
Proof.
  intros Hlen.
  destruct args as [|a0 [|a1 [|a2 [|a3 [|a4 [|a5 [|]]]]]]]; try discriminate Hlen.
  eexists. reflexivity.
Qed.

(** The policy document is the dump of the callback's dict on the resolved
    inputs. *)
Lemma firehose_policy_document_resolves (region account : string) (p : Provider) :
  firehose_policy_document region account p
  = json.dumps <$> firehose_policy_dict region account (policy_args region account p).
Proof.
  unfold firehose_policy_document, Output_apply.
  assert (Output_all (firehose_policy_inputs region account) p
          = Some (policy_args region account p)) as ->; [|reflexivity].
  unfold Output_all, firehose_policy_inputs.
  change (mapM (resolve p) (?x :: ?l))
    with (y ← resolve p x; k ← mapM (resolve p) l; Some (y :: k)).
  change (resolve p (Deferred ?o)) with (o p).
  by rewrite s3_express_bucket_arn_resolves.
Qed.

(** C1. The Glue table named "web_events_s3_table" is declared with the
    storage location "s3express://" ++ (directory bucket's name) ++ "/" ++
    "web_events_s3_table" ++ "/", whatever name the engine reports for the
    bucket, and the stack output [s3_table_location] is that same value. *)
Theorem C1_table_location_derived_from_bucket (p : Provider) :
  let bucket := p "s3ExpressDirectoryBucket" "bucket_name" in
  let location :=
    "s3express://" +:+ bucket +:+ "/" +:+ "web_events_s3_table" +:+ "/" in
  let descriptor := CatalogTableArgs.storage_descriptor (CatalogTable.args glue_table) in
  DirectoryBucket.bucket_name s3_express_directory_bucket p = Some bucket ∧
  CatalogTableArgs.name (CatalogTable.args glue_table) = Plain "web_events_s3_table" ∧
  resolve p (CatalogTableStorageDescriptorArgs.location descriptor) = Some location ∧
  ∀ region account : string,
    ∃ exported : Output.t string,
      lookup_export "s3_table_location" (execute (program region account))
        = Some exported ∧
      CatalogTableStorageDescriptorArgs.location descriptor = Deferred exported ∧
      exported p = Some location.
Proof.
  cbv zeta. split; [apply bucket_name_resolves|].
  split; [reflexivity|].
  split; [apply s3_express_table_location_resolves|].
  intros region account. exists s3_express_table_location.
  split; [by vm_compute|].
  split; [reflexivity|apply s3_express_table_location_resolves].
Qed.

(** C2. Whatever region, account id, bucket ARN, catalog id, database name
    and table name reach the policy construction, the S3 statement's
    resources are exactly [bucket ARN; bucket ARN ++ "/*"], the Glue
    statement's are exactly the catalog, database and table ARNs built from
    region, catalog id, database and table, and the logs statement's is
    exactly the log-group ARN of the stream name; the script's rendered
    policy is the dump of that dict on the values the engine reports. *)
Theorem C2_policy_resource_lists (region account : string) :
  (∀ arn bucket lam catalog db tbl : string,
     ∃ doc : json.value,
       firehose_policy_dict region account [arn; bucket; lam; catalog; db; tbl]
         = Some doc ∧
       statement_resources doc 0 = Some [arn; arn +:+ "/*"] ∧
       statement_resources doc 1
         = Some ["arn:aws:glue:" +:+ region +:+ ":" +:+ catalog +:+ ":catalog";
                 "arn:aws:glue:" +:+ region +:+ ":" +:+ catalog
                   +:+ ":database/" +:+ db;
                 "arn:aws:glue:" +:+ region +:+ ":" +:+ catalog
                   +:+ ":table/" +:+ db +:+ "/" +:+ tbl] ∧
       statement_resources doc 2
         = Some ["arn:aws:logs:" +:+ region +:+ ":" +:+ account
                   +:+ ":log-group:/aws/kinesisfirehose/"
                   +:+ firehose_stream_name +:+ ":*"]) ∧
  ∀ p : Provider,
    firehose_policy_document region account p
    = json.dumps <$>
        firehose_policy_dict region account
          ["arn:aws:s3express:" +:+ region +:+ ":" +:+ account +:+ ":bucket/"
             +:+ p "s3ExpressDirectoryBucket" "bucket_name";
           p "s3ExpressDirectoryBucket" "bucket_name";
           partition_lambda_arn;
           p "s3TablesGlueDatabase" "catalog_id";
           p "s3TablesGlueDatabase" "name";
           p "s3GlueTableForExpress" "name"].
Proof.
  split.
  - intros arn bucket lam catalog db tbl.
    eexists. split; [reflexivity|]. repeat split.
  - intros p. apply firehose_policy_document_resolves.
Qed.

(** C3. The bucket ARN is "arn:aws:s3express:" ++ region ++ ":" ++
    account_id ++ ":bucket/" ++ (directory bucket's name), and the rendered
    policy document is the dump of a dict whose first (S3 Express) statement
    lists exactly that ARN and that ARN followed by "/*" as resources. *)
Theorem C3_bucket_arn_feeds_policy (region account : string) (p : Provider) :
  let arn :=
    "arn:aws:s3express:" +:+ region +:+ ":" +:+ account +:+ ":bucket/"
      +:+ p "s3ExpressDirectoryBucket" "bucket_name" in
  s3_express_bucket_arn region account p = Some arn ∧
  firehose_policy_inputs region account !! 0
    = Some (Deferred (s3_express_bucket_arn region account)) ∧
  ∃ doc : json.value,
    firehose_policy_document region account p = Some (json.dumps doc) ∧
    statement_actions doc 0
      = Some ["s3express:CreateSession"; "s3express:PutObject"] ∧
    statement_resources doc 0 = Some [arn; arn +:+ "/*"].
Proof.
  cbv zeta. split; [apply s3_express_bucket_arn_resolves|].
  split; [reflexivity|].
  destruct (firehose_policy_dict_total region account (policy_args region account p))
    as [doc Hdoc]; [reflexivity|].
  exists doc. rewrite firehose_policy_document_resolves, Hdoc.
  split; [reflexivity|].
  injection Hdoc as <-. split; reflexivity.
Qed.

(** C5. The bucket name is bucket_base_name ++ "--" ++ availability_zone_id
    ++ "--x-s3", that is "my-s3-table-bucket--use1-az4--x-s3"; the directory
    bucket is declared with exactly this name, and its location name is the
    availability zone id "use1-az4". *)
Theorem C5_bucket_name_format :
  s3_express_bucket_name
    = bucket_base_name +:+ "--" +:+ availability_zone_id +:+ "--x-s3" ∧
  s3_express_bucket_name = "my-s3-table-bucket--use1-az4--x-s3" ∧
  DirectoryBucketArgs.bucket_name (DirectoryBucket.args s3_express_directory_bucket)
    = Plain s3_express_bucket_name ∧
  DirectoryBucketLocationArgs.name
    (DirectoryBucketArgs.location (DirectoryBucket.args s3_express_directory_bucket))
    = Plain availability_zone_id ∧
  availability_zone_id = "use1-az4".
Proof. repeat split. Qed.

(** C6. The directory bucket is declared with data_redundancy
    "SingleAvailabilityZone", and its location is one availability-zone
    reference: type "AvailabilityZone", name a single AZ id. *)
Theorem C6_bucket_single_availability_zone :
  let args := DirectoryBucket.args s3_express_directory_bucket in
  DirectoryBucketArgs.data_redundancy args = Plain "SingleAvailabilityZone" ∧
  DirectoryBucketLocationArgs.type (DirectoryBucketArgs.location args)
    = Plain "AvailabilityZone" ∧
  DirectoryBucketLocationArgs.name (DirectoryBucketArgs.location args)
    = Plain availability_zone_id.
Proof. repeat split. Qed.

(** C4. In the delivery stream declaration, the role ARN of the extended S3
    configuration and the role ARN of the conversion schema configuration are
    both the ARN of the Firehose role, and the schema configuration's
    database and table names are the names of the Glue database and of the
    Glue table. *)
Theorem C4_stream_embeds_role_and_table (region account : string) (p : Provider) :
  let e := FirehoseDeliveryStreamArgs.extended_s3_configuration
             (FirehoseDeliveryStream.args (firehose_stream region account)) in
  let sc :=
    FirehoseDeliveryStreamExtendedS3ConfigurationDataFormatConversionConfigurationArgs.schema_configuration
      (FirehoseDeliveryStreamExtendedS3ConfigurationArgs.data_format_conversion_configuration e) in
  FirehoseDeliveryStreamExtendedS3ConfigurationArgs.role_arn e
    = Deferred (Role.arn firehose_role) ∧
  FirehoseDeliveryStreamExtendedS3ConfigurationDataFormatConversionConfigurationSchemaConfigurationArgs.role_arn sc
    = Deferred (Role.arn firehose_role) ∧
  FirehoseDeliveryStreamExtendedS3ConfigurationDataFormatConversionConfigurationSchemaConfigurationArgs.database_name sc
    = Deferred (CatalogDatabase.name glue_database) ∧
  FirehoseDeliveryStreamExtendedS3ConfigurationDataFormatConversionConfigurationSchemaConfigurationArgs.table_name sc
    = Deferred (CatalogTable.name glue_table) ∧
  resolve p (FirehoseDeliveryStreamExtendedS3ConfigurationArgs.role_arn e)
    = Some (p "firehoseS3ExpressRole" "arn") ∧
  resolve p
    (FirehoseDeliveryStreamExtendedS3ConfigurationDataFormatConversionConfigurationSchemaConfigurationArgs.role_arn sc)
    = Some (p "firehoseS3ExpressRole" "arn") ∧
  resolve p
    (FirehoseDeliveryStreamExtendedS3ConfigurationDataFormatConversionConfigurationSchemaConfigurationArgs.database_name sc)
    = Some (p "s3TablesGlueDatabase" "name") ∧
  resolve p
    (FirehoseDeliveryStreamExtendedS3ConfigurationDataFormatConversionConfigurationSchemaConfigurationArgs.table_name sc)
    = Some (p "s3GlueTableForExpress" "name").
Proof. repeat split. Qed.

(** C9. The stream's prefix is table_name ++ "/" ("web_events_s3_table/"),
    and the Glue table's location is "s3express://" ++ (bucket name) ++ "/"
    followed by that prefix. *)
Theorem C9_prefix_aligned_with_table_location (region account : string) (p : Provider) :
  let e := FirehoseDeliveryStreamArgs.extended_s3_configuration
             (FirehoseDeliveryStream.args (firehose_stream region account)) in
  let descriptor := CatalogTableArgs.storage_descriptor (CatalogTable.args glue_table) in
  ∃ stream_prefix : string,
    resolve p (FirehoseDeliveryStreamExtendedS3ConfigurationArgs.prefix e)
      = Some stream_prefix ∧
    stream_prefix = table_name +:+ "/" ∧
    stream_prefix = "web_events_s3_table/" ∧
    resolve p (CatalogTableStorageDescriptorArgs.location descriptor)
      = Some ("s3express://" +:+ p "s3ExpressDirectoryBucket" "bucket_name"
                +:+ "/" +:+ stream_prefix).
Proof.
  cbv zeta. exists "web_events_s3_table/".
  split; [reflexivity|]. split; [reflexivity|]. split; [reflexivity|].
  apply s3_express_table_location_resolves.
Qed.

(** C10. The stream named by the script's one stream name has logging
    enabled on the log group "/aws/kinesisfirehose/" ++ firehose_stream_name,
    and the logs statement of the policy attached to the stream's role names
    that same log group inside its resource ARN. *)
Theorem C10_log_group_consistent (region account : string) (p : Provider) :
  let a := FirehoseDeliveryStream.args (firehose_stream region account) in
  let e := FirehoseDeliveryStreamArgs.extended_s3_configuration a in
  let logging :=
    FirehoseDeliveryStreamExtendedS3ConfigurationArgs.cloudwatch_logging_options e in
  let attachment := RolePolicyAttachment.args (firehose_policy_attachment region account) in
  FirehoseDeliveryStreamArgs.name a = Plain firehose_stream_name ∧
  FirehoseDeliveryStreamExtendedS3ConfigurationCloudwatchLoggingOptionsArgs.enabled logging
    = Plain true ∧
  FirehoseDeliveryStreamExtendedS3ConfigurationArgs.role_arn e
    = Deferred (Role.arn firehose_role) ∧
  RolePolicyAttachmentArgs.role attachment = Deferred (Role.name firehose_role) ∧
  RolePolicyAttachmentArgs.policy_arn attachment
    = Deferred (Policy.arn (firehose_policy region account)) ∧
  PolicyArgs.policy (Policy.args (firehose_policy region account))
    = Deferred (firehose_policy_document region account) ∧
  ∃ (group : string) (doc : json.value),
    group = "/aws/kinesisfirehose/" +:+ firehose_stream_name ∧
    FirehoseDeliveryStreamExtendedS3ConfigurationCloudwatchLoggingOptionsArgs.log_group_name logging
      = Plain group ∧
    firehose_policy_document region account p = Some (json.dumps doc) ∧
    statement_actions doc 2
      = Some ["logs:CreateLogGroup"; "logs:CreateLogStream"; "logs:PutLogEvents"] ∧
    statement_resources doc 2
      = Some ["arn:aws:logs:" +:+ region +:+ ":" +:+ account +:+ ":log-group:"
                +:+ group +:+ ":*"].
Proof.
  cbv zeta. do 6 (split; [reflexivity|]).
  destruct (firehose_policy_dict_total region account (policy_args region account p))
    as [doc Hdoc]; [reflexivity|].
  exists ("/aws/kinesisfirehose/" +:+ firehose_stream_name), doc.
  rewrite firehose_policy_document_resolves, Hdoc.
  do 3 (split; [reflexivity|]).
  injection Hdoc as <-. split; reflexivity.
Qed.

(** The callback never reads [args[2]]. *)
Lemma firehose_policy_dict_ignores_lambda (region account : string)
    (args : list string) (lam : string) :
  firehose_policy_dict region account (<[2:=lam]> args)
  = firehose_policy_dict region account args.
Proof.
  unfold firehose_policy_dict.
  by rewrite !list_lookup_insert_ne by lia.
Qed.

(** C7. The placeholder Lambda ARN is the third value handed to the policy
    construction, yet the dict the callback builds is the same whatever
    stands in that position; for every region, account id and engine-reported
    value the rendered policy is the dump of a dict with exactly three
    statements, none of which lists the placeholder as a resource or grants a
    Lambda action; indeed no string anywhere in that dict, key or value at
    any depth, is the placeholder or a Lambda action. *)
Theorem C7_lambda_placeholder_never_reaches_policy
    (region account : string) (p : Provider) :
  partition_lambda_arn = "arn:aws:lambda:..." ∧
  firehose_policy_inputs region account !! 2 = Some (Plain partition_lambda_arn) ∧
  (∀ (args : list string) (lam : string),
     firehose_policy_dict region account (<[2:=lam]> args)
     = firehose_policy_dict region account args) ∧
  ∃ (doc : json.value) (sts : list json.value),
    firehose_policy_document region account p = Some (json.dumps doc) ∧
    statements doc = Some sts ∧
    length sts = 3 ∧
    Forall (λ st,
              ∃ acts rs : list string,
                (json.get "Action" st ≫= string_list) = Some acts ∧
                (json.get "Resource" st ≫= string_list) = Some rs ∧
                (partition_lambda_arn ∉ rs) ∧
                ("lambda:InvokeFunction" ∉ acts) ∧
                ("lambda:GetFunctionConfiguration" ∉ acts)) sts ∧
    (partition_lambda_arn ∉ strings_of doc) ∧
    ("lambda:InvokeFunction" ∉ strings_of doc) ∧
    ("lambda:GetFunctionConfiguration" ∉ strings_of doc).
Proof.
  split; [reflexivity|]. split; [reflexivity|].
  split; [apply firehose_policy_dict_ignores_lambda|].
  destruct (firehose_policy_dict_total region account (policy_args region account p))
    as [doc Hdoc]; [reflexivity|].
  rewrite firehose_policy_document_resolves, Hdoc.
  injection Hdoc as <-.
  eexists _, _. split; [reflexivity|]. split; [reflexivity|]. split; [reflexivity|].
  split.
  - repeat apply Forall_cons_2; try apply Forall_nil_2;
      (eexists _, _; split; [reflexivity|]; split; [reflexivity|]);
      rewrite ?elem_of_cons, !elem_of_nil;
      (split; [|split]); intros H; vm_compute in H; intuition discriminate.
  - cbn [strings_of map concat app fst snd].
    repeat split; intros H;
      repeat (apply elem_of_cons in H as [H|H]; [vm_compute in H; discriminate H|]);
      by apply elem_of_nil in H.
Qed.

(** C8. Two runs that see the same region, the same account id and the same
    values for the resource properties the script reads back register the
    same declarations and export the same outputs, both as declared and as
    resolved; the clock and every other engine-side value are irrelevant, and
    the sequence of declared resources and of export keys is the same in
    every run. *)
Theorem C8_script_deterministic (env1 env2 : Environment) :
  get_region_name env1 = get_region_name env2 →
  get_caller_identity_account_id env1 = get_caller_identity_account_id env2 →
  agree_on consulted (engine env1) (engine env2) →
  resources (run env1) = resources (run env2) ∧
  exports (run env1) = exports (run env2) ∧
  map (resolved_declaration (engine env1)) (resources (run env1))
    = map (resolved_declaration (engine env2)) (resources (run env2)) ∧
  resolved_exports (engine env1) (run env1)
    = resolved_exports (engine env2) (run env2) ∧
  map kind_and_name (resources (run env1))
    = [("DirectoryBucket", "s3ExpressDirectoryBucket");
       ("CatalogDatabase", "s3TablesGlueDatabase");
       ("CatalogTable", "s3GlueTableForExpress");
       ("Role", "firehoseS3ExpressRole");
       ("Policy", "firehoseS3ExpressPolicy");
       ("RolePolicyAttachment", "firehoseS3ExpressPolicyAttachment");
       ("FirehoseDeliveryStream", "s3TablesFirehoseStream")] ∧
  map fst (exports (run env1))
    = ["s3_express_bucket_name"; "s3_express_bucket_arn"; "s3_table_location";
       "glue_database_name"; "glue_table_name";
       "firehose_delivery_stream_name"; "firehose_delivery_stream_arn"].
Proof.
  destruct env1 as [region account p1 t1], env2 as [region' account' p2 t2].
  cbn [get_region_name get_caller_identity_account_id engine].
  intros <- <- Hagree. unfold run.
  cbn [get_region_name get_caller_identity_account_id].
  unfold agree_on, consulted in Hagree.
  repeat (apply Forall_cons in Hagree as [? Hagree]).
  cbn [fst snd] in *.
  split; [reflexivity|]. split; [reflexivity|].
  split; [|split; [|split; reflexivity]].
  - unfold execute, program. cbn [foldl step resources exports app map].
    unfold resolved_declaration.
    with_strategy opaque
      [firehose_policy_document s3_express_bucket_arn s3_express_table_location
       json.dumps] cbn.
    rewrite !firehose_policy_document_resolves, !s3_express_bucket_arn_resolves,
      !s3_express_table_location_resolves.
    unfold policy_args.
    cbv [CatalogDatabase.name CatalogTable.name Role.name Role.arn Policy.arn
         property CatalogDatabase.resource_name CatalogTable.resource_name
         Role.resource_name Policy.resource_name
         glue_database glue_table firehose_role firehose_policy].
    repeat match goal with H : p1 _ _ = p2 _ _ |- _ => rewrite ?H; clear H end.
    reflexivity.
  - unfold execute, program, resolved_exports.
    cbn [foldl step resources exports app map fst snd].
    rewrite !s3_express_bucket_arn_resolves, !s3_express_table_location_resolves.
    cbv [DirectoryBucket.bucket_name CatalogDatabase.name CatalogTable.name
         FirehoseDeliveryStream.name FirehoseDeliveryStream.arn property
         DirectoryBucket.resource_name CatalogDatabase.resource_name
         CatalogTable.resource_name FirehoseDeliveryStream.resource_name
         s3_express_directory_bucket glue_database glue_table firehose_stream].
    repeat match goal with H : p1 _ _ = p2 _ _ |- _ => rewrite ?H; clear H end.
    reflexivity.
Qed.

(** The determinism theorem at [env_a] and [env_b], which differ in the
    clock and in an engine value the script never reads. *)
Lemma C8_script_deterministic_witness :
  clock env_a ≠ clock env_b ∧
  engine env_a "s3ExpressDirectoryBucket" "id"
    ≠ engine env_b "s3ExpressDirectoryBucket" "id" ∧
  agree_on consulted (engine env_a) (engine env_b) ∧
  map (resolved_declaration (engine env_a)) (resources (run env_a))
    = map (resolved_declaration (engine env_b)) (resources (run env_b)) ∧
  resolved_exports (engine env_a) (run env_a)
    = resolved_exports (engine env_b) (run env_b).
Proof.
  split; [discriminate|]. split; [discriminate|].
  assert (agree_on consulted (engine env_a) (engine env_b)) as Hagree
    by (repeat constructor).
  split; [exact Hagree|].
  destruct (C8_script_deterministic env_a env_b eq_refl eq_refl Hagree)
    as (_ & _ & Hdecl & Hexp & _).
  split; assumption.
Defined.

(** * Further properties *)

Lemma append_assoc (a b c : string) : (a +:+ b) +:+ c = a +:+ (b +:+ c).
Proof.
  induction a as [|x a IH]; [reflexivity|].
  change (String x ((a +:+ b) +:+ c) = String x (a +:+ (b +:+ c))). by f_equal.
Qed.

Lemma append_cons (x : ascii) (a b : string) :
  String x a +:+ b = String x (a +:+ b).
Proof. reflexivity. Qed.

Lemma append_inj_l (a x y : string) : a +:+ x = a +:+ y → x = y.
Proof.
  induction a as [|c a IH]; [done|].
  rewrite !append_cons. intros [= H]. by apply IH.
Qed.



Lemma ascii_only_append (a b : string) :
  ascii_only (a +:+ b) = ascii_only a && ascii_only b.
Proof.
  induction a as [|c a IH]; [reflexivity|].
  rewrite append_cons. simpl. by rewrite IH, andb_assoc.
Qed.


Lemma decode_escape_char (c : ascii) (r : string) :
  decode_char (json.escape_char c +:+ r) = Some (c, r).
Proof. destruct c as [[] [] [] [] [] [] [] []]; reflexivity. Qed.

Lemma escape_char_head (c : ascii) (r : string) :
  head_char (json.escape_char c +:+ r) ≠ Some (ascii_of_N 34).
Proof. destruct c as [[] [] [] [] [] [] [] []]; discriminate. Qed.

Lemma escape_cons (c : ascii) (s : string) :
  json.escape (String c s) = json.escape_char c +:+ json.escape s.
Proof. reflexivity. Qed.

(** An escaped string followed by the closing quote can be read back in one
    way only. *)
Lemma escape_quote_inj (s1 s2 r1 r2 : string) :
  json.escape s1 +:+ json.quote +:+ r1 = json.escape s2 +:+ json.quote +:+ r2 →
  s1 = s2 ∧ r1 = r2.
Proof.
  revert s2. induction s1 as [|c1 s1 IH]; intros [|c2 s2] H.
  - split; [reflexivity|]. by injection H.
  - rewrite escape_cons, append_assoc in H.
    apply (f_equal head_char) in H. symmetry in H.
    by apply escape_char_head in H.
  - rewrite escape_cons, append_assoc in H.
    apply (f_equal head_char) in H.
    by apply escape_char_head in H.
  - rewrite !escape_cons, !append_assoc in H.
    apply (f_equal decode_char) in H.
    rewrite !decode_escape_char in H. injection H as -> H.
    destruct (IH _ H) as [-> ->]. done.
Qed.

Lemma encode_basestring_ascii_inj (s1 s2 r1 r2 : string) :
  json.encode_basestring_ascii s1 +:+ r1 = json.encode_basestring_ascii s2 +:+ r2 →
  s1 = s2 ∧ r1 = r2.
Proof.
  unfold json.encode_basestring_ascii. rewrite !append_assoc.
  intros H. apply append_inj_l in H. by apply escape_quote_inj.
Qed.


















(** X1. The callback raises exactly on lists of fewer than six values. *)
Theorem X1_policy_callback_raises_iff_short (region account : string)
    (args : list string) :
  firehose_policy_dict region account args = None ↔ length args < 6.
Proof.
  destruct args as [|a0 [|a1 [|a2 [|a3 [|a4 [|a5 rest]]]]]]; cbn [length];
    (split; [intros H; first [discriminate H | lia] | intros H; first [reflexivity | lia]]).
Qed.

(** X2. The dict depends on the values at positions 0, 3, 4 and 5 only:
    the bucket name at position 1, the Lambda ARN at position 2 and anything
    after position 5 are never read. *)
Theorem X2_policy_callback_reads_four_positions (region account : string)
    (args args' : list string) :
  args !! 0 = args' !! 0 →
  args !! 3 = args' !! 3 →
  args !! 4 = args' !! 4 →
  args !! 5 = args' !! 5 →
  firehose_policy_dict region account args
  = firehose_policy_dict region account args'.
Proof.
  intros H0 H3 H4 H5. unfold firehose_policy_dict.
  by rewrite H0, H3, H4, H5.
Qed.

Lemma X2_policy_callback_reads_four_positions_witness :
  firehose_policy_dict "eu-west-1" "42" ["A"; "bucket"; "lambda"; "C"; "D"; "T"]
  = firehose_policy_dict "eu-west-1" "42" ["A"; "other"; "none"; "C"; "D"; "T"; "more"].
Proof.
  apply (X2_policy_callback_reads_four_positions "eu-west-1" "42"
           ["A"; "bucket"; "lambda"; "C"; "D"; "T"]
           ["A"; "other"; "none"; "C"; "D"; "T"; "more"]);
    reflexivity.
Defined.


Lemma prefix_append_l (a x y : string) :
  String.prefix (a +:+ x) (a +:+ y) = String.prefix x y.
Proof.
  induction a as [|c a IH]; [reflexivity|].
  rewrite !append_cons. cbn [String.prefix].
  by destruct (ascii_dec c c).
Qed.

Lemma firehose_error_output_prefix_resolves (p : Provider) :
  firehose_error_output_prefix p
  = Some ("s3express://" +:+ p "s3ExpressDirectoryBucket" "bucket_name"
            +:+ "/firehose-errors/").
Proof.
  unfold firehose_error_output_prefix.
  by erewrite Output_concat_resolves by reflexivity.
Qed.







(** X9. The error prefix the script computes lies in the same bucket as the
    table location but on a different path: for every bucket name neither
    string is a prefix of the other. *)
Theorem X9_error_prefix_outside_table_location (p : Provider) :
  ∃ err loc : string,
    firehose_error_output_prefix p = Some err ∧
    s3_express_table_location p = Some loc ∧
    err = "s3express://" +:+ p "s3ExpressDirectoryBucket" "bucket_name"
            +:+ "/firehose-errors/" ∧
    String.prefix err loc = false ∧
    String.prefix loc err = false.
Proof.
  eexists _, _.
  split; [apply firehose_error_output_prefix_resolves|].
  split; [apply s3_express_table_location_resolves|].
  split; [reflexivity|].
  by rewrite !prefix_append_l.
Qed.

(** ** The encoder on every code point *)

Lemma escape_code_point_latin1 (c : ascii) :
  unicode.escape_code_point (N_of_ascii c) = json.escape_char c.
Proof. destruct c as [[] [] [] [] [] [] [] []]; reflexivity. Qed.

Lemma escape_of_string (s : string) :
  unicode.escape (unicode.of_string s) = json.escape s.
Proof.
  induction s as [|c s IH]; [reflexivity|].
  cbn [unicode.of_string unicode.escape].
  by rewrite escape_code_point_latin1, IH.
Qed.

(** On code points below 256 the embedded encoder is the full one. *)
Lemma encode_of_string (s : string) :
  unicode.encode_basestring_ascii (unicode.of_string s)
  = json.encode_basestring_ascii s.
Proof.
  unfold unicode.encode_basestring_ascii, json.encode_basestring_ascii.
  by rewrite escape_of_string.
Qed.

Lemma of_to_string (u : unicode.str) :
  Forall (λ n, (n < 256)%N) u → unicode.of_string (unicode.to_string u) = u.
Proof.
  induction 1 as [|n u Hn _ IH]; [reflexivity|].
  cbn [unicode.to_string unicode.of_string].
  by rewrite N_ascii_embedding, IH.
Qed.

Lemma hex_digit_printable (x : N) : printable (json.hex_digit (x mod 16)) = true.
Proof.
  assert (x mod 16 < 16)%N as Hd by (apply N.mod_lt; discriminate).
  destruct (x mod 16)%N as [|d]; [reflexivity|].
  do 4 (destruct d as [d|d|]; try reflexivity); lia.
Qed.

Lemma hex4_printable (n : N) : ascii_only (unicode.hex4 n) = true.
Proof.
  unfold unicode.hex4. cbn [ascii_only].
  by rewrite !hex_digit_printable.
Qed.

Lemma escape_code_point_printable (n : N) :
  ascii_only (unicode.escape_code_point n) = true.
Proof.
  unfold unicode.escape_code_point.
  repeat (match goal with
          | |- context [if ?b then _ else _] => destruct b eqn:?
          end; try reflexivity);
    cbv zeta; rewrite ?ascii_only_append, ?hex4_printable; try reflexivity.
  cbn [ascii_only]. unfold printable.
  rewrite N_ascii_embedding; [by rewrite Heqb6|].
  apply andb_prop in Heqb6 as [_ H]. apply N.leb_le in H. lia.
Qed.

Lemma unicode_escape_printable (u : unicode.str) :
  ascii_only (unicode.escape u) = true.
Proof.
  induction u as [|n u IH]; [reflexivity|].
  cbn [unicode.escape].
  by rewrite ascii_only_append, escape_code_point_printable, IH.
Qed.

Lemma unicode_encode_printable (u : unicode.str) :
  ascii_only (unicode.encode_basestring_ascii u) = true.
Proof.
  unfold unicode.encode_basestring_ascii.
  by rewrite !ascii_only_append, unicode_escape_printable.
Qed.

(** U+1F600 and the lone surrogates U+D83D U+DE00 are encoded alike. *)
Lemma unicode_encode_collision :
  unicode.encode_basestring_ascii [128512%N]
  = unicode.encode_basestring_ascii [55357%N; 56832%N].
Proof. reflexivity. Qed.

(** On code points below 256 the full encoder is injective. *)
Lemma unicode_encode_inj_latin1 (u1 u2 : unicode.str) :
  Forall (λ n, (n < 256)%N) u1 →
  Forall (λ n, (n < 256)%N) u2 →
  unicode.encode_basestring_ascii u1 = unicode.encode_basestring_ascii u2 →
  u1 = u2.
Proof.
  intros H1 H2 H.
  rewrite <- (of_to_string u1 H1), <- (of_to_string u2 H2) in H.
  rewrite !encode_of_string in H.
  assert (unicode.to_string u1 = unicode.to_string u2) as Hs.
  { apply (encode_basestring_ascii_inj _ _ "" ""). by rewrite !append_empty_r. }
  by rewrite <- (of_to_string u1 H1), <- (of_to_string u2 H2), Hs.
Qed.
